(** * Leap Motion gesture value objects and the documentation build pipeline

    A shallow embedding of [src/default/Gesture.ts], [src/default/SwipeGesture.ts]
    and of the two Gruntfiles that drive the documentation build: the one
    that configures the [typedoc] plugin and the one that writes the
    [typedoc] task out as a function.

    - JavaScript numbers are IEEE-754 binary64 data: [spec_float] with its
      comparison [SFeqb] (NaN differs from everything, the two zeros are equal).
    - A field that was never assigned reads as [undefined].
    - Objects live in a heap and are handled through references; the methods
      of [Gesture] are written in a small state-and-error monad over that
      heap, so that reads, allocation and (absence of) writes are explicit. *)

From Stdlib Require Import ZArith Ascii String Floats.SpecFloat.
From stdpp Require Import base option list strings pretty.


(** ** JavaScript values held by typed fields *)

Module JS.

(** A field of declared type [A]: either never assigned or holding a value. *)
Inductive field (A : Type) : Type :=
| undefined : field A
| defined (a : A) : field A.
Arguments undefined {A}.
Arguments defined {A} a.

(** The TypeScript type [number]. *)
Definition number : Type := field spec_float.

Definition NaN : spec_float := S754_nan.
Definition zero (negative : bool) : spec_float := S754_zero negative.

(** [a == b] on two operands of type [number]: [undefined] is loosely equal
    to itself and to no number; two numbers are compared as IEEE-754 data. *)
Definition loose_eq (a b : number) : bool :=
  match a, b with
  | undefined, undefined => true
  | defined x, defined y => SFeqb x y
  | _, _ => false
  end.

(** [ToBoolean] on an operand of type [number]: [undefined], NaN, [+0] and
    [-0] are falsy, every other number is truthy. *)
Definition ToBoolean (a : number) : bool :=
  match a with
  | undefined => false
  | defined S754_nan => false
  | defined (S754_zero _) => false
  | defined (S754_infinity _) => true
  | defined (S754_finite _ _ _) => true
  end.

(** [!a] *)
Definition logical_not (a : number) : bool := negb (ToBoolean a).

End JS.

Import JS.

(** ** The enumerations of [Gesture.ts] *)

Inductive State : Type :=
| STATE_INVALID
| STATE_START
| STATE_UPDATE
| STATE_STOP.

(** [enum Type]; [Type] itself is reserved, hence the prefix. *)
Inductive GestureType : Type :=
| TYPE_INVALID
| TYPE_SWIPE
| TYPE_CIRCLE
| TYPE_SCREEN_TAP
| TYPE_KEY_TAP.

Definition State_value (s : State) : Z :=
  match s with
  | STATE_INVALID => 0
  | STATE_START => 1
  | STATE_UPDATE => 2
  | STATE_STOP => 3
  end.

Definition GestureType_value (t : GestureType) : Z :=
  match t with
  | TYPE_INVALID => 4
  | TYPE_SWIPE => 5
  | TYPE_CIRCLE => 6
  | TYPE_SCREEN_TAP => 7
  | TYPE_KEY_TAP => 8
  end.

(** ** Objects *)

(** A reference to an object.  [Frame], [Hand], [Pointable] and [Vector3]
    are declared in files outside this development; their instances only
    occur as references. *)
Definition ref : Type := nat.

(** The fields [SwipeGesture] adds to [Gesture]. *)
Record SwipeFields : Type := {
  direction : field ref;
  pointable : field ref;
  position : field ref;
  speed : number;
  startPosition : field ref
}.

(** Which class an instance was constructed from, with the fields the
    subclass carries. *)
Inductive Subclass : Type :=
| PlainGesture
| SwipeGesture (f : SwipeFields).

(** An instance of [Gesture] (or of a subclass): the fields in the order of
    the class body. *)
Record Gesture : Type := {
  duration : number;
  durationSeconds : number;
  frame : field ref;
  hands : list ref;
  id : number;
  pointables : list ref;
  state : field State;
  type : field GestureType;
  subclass : Subclass
}.

(** The heap of gesture objects; a reference is an index into it. *)
Definition Heap : Type := list Gesture.

(** ** The heap monad *)

(** A computation reads and extends the heap; [None] is the [TypeError] of
    dereferencing something that is not an object. *)
Definition M (A : Type) : Type := Heap -> option (A * Heap).

#[export] Instance M_ret : MRet M := fun A (a : A) h => Some (a, h).

#[export] Instance M_bind : MBind M := fun A B (k : A -> M B) (m : M A) h =>
  match m h with
  | Some (a, h') => k a h'
  | None => None
  end.

(** [r.f] *)
Definition get {A} (r : ref) (f : Gesture -> A) : M A :=
  fun h => match h !! r with
           | Some o => Some (f o, h)
           | None => None
           end.

(** [new C()] with the field values the constructor leaves behind. *)
Definition alloc (o : Gesture) : M ref :=
  fun h => Some (List.length h, h ++ [o]).

(** ** [class Gesture] *)

(** The state of an instance after the field initialisers ([hands = []],
    [pointables = []]) and the empty constructor body have run. *)
Definition Gesture_fresh (c : Subclass) : Gesture := {|
  duration := undefined;
  durationSeconds := undefined;
  frame := undefined;
  hands := [];
  id := undefined;
  pointables := [];
  state := undefined;
  type := undefined;
  subclass := c
|}.

(** [new Gesture()] *)
Definition Gesture_new : M ref := alloc (Gesture_fresh PlainGesture).

(** [new SwipeGesture()]: the constructor only calls [super()]. *)
Definition SwipeGesture_new : M ref :=
  alloc (Gesture_fresh (SwipeGesture {|
    direction := undefined;
    pointable := undefined;
    position := undefined;
    speed := undefined;
    startPosition := undefined |})).

(** [SwipeGesture.classType] *)
Definition SwipeGesture_classType : Z := GestureType_value TYPE_SWIPE.

(** [isEqualTo(other) { return (this.id == other.id); }] *)
Definition isEqualTo (this other : ref) : M bool :=
  a ← get this id;
  b ← get other id;
  mret (loose_eq a b).

(** [isValid() { if (!this.durationSeconds) return false; return true; }] *)
Definition isValid (this : ref) : M bool :=
  d ← get this durationSeconds;
  if logical_not d then mret false else mret true.

(** [static invalid() { return new Gesture(); }] *)
Definition invalid : M ref := Gesture_new.

(** [toString()] concatenates string pieces with the fields; [+] converts a
    non-string operand with the runtime's [ToString]. *)
Section toString.

(** [Number::toString], the runtime's decimal rendering of a number; it is
    part of the JavaScript engine, not of the class. *)
Variable NumberToString : spec_float -> string.

Definition ToString (a : number) : string :=
  match a with
  | undefined => "undefined"
  | defined x => NumberToString x
  end.

(** An enum member is its numeric value at run time. *)
Definition ToString_type (a : field GestureType) : string :=
  match a with
  | undefined => "undefined"
  | defined t => pretty (GestureType_value t)
  end.

(** ["[Gesture id:" + this.id + " duration:" + this.duration
     + " type:" + this.type + "]"] *)
Definition toString (this : ref) : M string :=
  i ← get this id;
  d ← get this duration;
  t ← get this type;
  mret ("[Gesture id:" +:+ ToString i +:+ " duration:" +:+ ToString d
        +:+ " type:" +:+ ToString_type t +:+ "]").

End toString.

(** ** Notions used in the statements *)

Definition is_zero (x : spec_float) : Prop := exists s, x = zero s.

(** [a == b] spelled out: both unset, or two non-NaN numbers that are the
    same datum or both zero. *)
Definition loosely_equal (a b : number) : Prop :=
  (a = undefined /\ b = undefined) \/
  (exists x y, a = defined x /\ b = defined y /\
               x <> NaN /\ y <> NaN /\ (x = y \/ (is_zero x /\ is_zero y))).

(** An identifier on which [==] and identity of the datum agree: unset, or
    a number that is neither NaN nor a zero. *)
Definition plain_id (a : number) : Prop :=
  match a with
  | undefined => True
  | defined x => x <> NaN /\ ~ is_zero x
  end.

(** Two successive calls of [Gesture.invalid()]. *)
Definition invalid_twice : M (ref * ref) :=
  a ← invalid;
  b ← invalid;
  mret (a, b).

(** The field values the constructor of [Gesture] leaves behind. *)
Definition freshly_constructed (g : Gesture) : Prop :=
  hands g = [] /\ pointables g = [] /\
  id g = undefined /\ duration g = undefined /\
  durationSeconds g = undefined /\ frame g = undefined /\
  state g = undefined /\ type g = undefined.

(** [new_ h] yields a new object satisfying [P] and touches nothing else. *)
Definition constructs (new_ : M ref) (h : Heap) (P : Gesture -> Prop) : Prop :=
  exists r h' g,
    new_ h = Some (r, h') /\ h !! r = None /\ h' !! r = Some g /\ P g /\
    (forall r0 g0, h !! r0 = Some g0 -> h' !! r0 = Some g0).

(** ** Sample data *)

(** The numbers 7 and 8 as binary64 data. *)
Definition seven : spec_float := S754_finite false 7881299347898368 (-50).
Definition eight : spec_float := S754_finite false 4503599627370496 (-49).
Definition half : spec_float := S754_finite false 4503599627370496 (-53).

(** A decimal rendering of the sample numbers, standing for the engine's
    [Number::toString] on them. *)
Definition render_sample (x : spec_float) : string :=
  if SFeqb x seven then "7"
  else if SFeqb x eight then "8"
  else if SFeqb x half then "0.5"
  else "NaN".

(** A gesture as the driver would populate it. *)
Definition populated (i d ds : number) (c : Subclass) : Gesture := {|
  duration := d;
  durationSeconds := ds;
  frame := defined 0;
  hands := [1];
  id := i;
  pointables := [2];
  state := defined STATE_UPDATE;
  type := defined TYPE_SWIPE;
  subclass := c
|}.

Definition swipe_at (pos : ref) (v : spec_float) : Subclass :=
  SwipeGesture {|
    direction := defined 3;
    pointable := defined 2;
    position := defined pos;
    speed := defined v;
    startPosition := defined 4 |}.

(** Two swipes with identifier 7 that differ in position and speed, and one
    with identifier 8. *)
Definition swipe7 : Gesture :=
  populated (defined seven) (defined eight) (defined half) (swipe_at 5 seven).
Definition swipe7' : Gesture :=
  populated (defined seven) (defined seven) (defined seven) (swipe_at 6 eight).
Definition swipe8 : Gesture :=
  populated (defined eight) (defined eight) (defined half) (swipe_at 5 seven).

Definition sample_heap : Heap := [swipe7; swipe7'; swipe8].

Definition nan_gesture : Gesture :=
  populated (defined NaN) (defined eight) (defined half) (swipe_at 5 seven).
Definition plus_zero_gesture : Gesture :=
  populated (defined (zero false)) (defined eight) (defined half)
            (swipe_at 5 seven).
Definition minus_zero_gesture : Gesture :=
  populated (defined (zero true)) (defined eight) (defined half)
            (swipe_at 5 seven).

Definition zero_duration_gesture : Gesture :=
  populated (defined seven) (defined (zero false)) (defined (zero false))
            (swipe_at 5 seven).

(** A gesture with a recorded duration whose identifier was never set. *)
Definition unnamed_valid : Gesture :=
  populated undefined (defined eight) (defined half) (swipe_at 5 seven).

(** ** Client code used in the statements *)

(** [this.isEqualTo(Gesture.invalid())] *)
Definition equals_invalid (this : ref) : M bool :=
  r ← invalid;
  isEqualTo this r.

(** [var s = new SwipeGesture(), i = Gesture.invalid();] followed by
    [s.isEqualTo(i)], [i.isEqualTo(s)] and [s.isValid()]. *)
Definition fresh_swipe_against_invalid : M (bool * bool * bool) :=
  s ← SwipeGesture_new;
  i ← invalid;
  a ← isEqualTo s i;
  b ← isEqualTo i s;
  v ← isValid s;
  mret (a, b, v).

(** * The documentation build pipeline (Gruntfile) *)

Module Gruntfile.

(** [options] of a [typedoc] target. *)
Record TypedocOptions : Type := {
  module : string;
  out : string;
  name : string;
  target : string;
  theme : string
}.

(** The data of one target, by the task it configures. *)
Inductive Target : Type :=
| clean (paths : list string)
| copy (src : list string) (dest : string)
| typedoc (options : TypedocOptions) (src : string)
| gh_pages (base : string) (src : string).

(** [getTypeDocPath()]: the [typeDocPath] of [local.json] when that file
    exists, and a default otherwise.  Nothing in the Gruntfile calls it. *)
Definition getTypeDocPath (local_json : option string) : string :=
  match local_json with
  | Some typeDocPath => typeDocPath
  | None => "typedoc/src/"
  end.

(** [grunt.initConfig({...})]: for each task its targets, in the order
    written.  ([pkg] is data read from [package.json], not a task.) *)
Definition initConfig : list (string * list (string * Target)) :=
  [ ("clean", [ ("dist", clean ["dist/"]) ]);
    ("copy", [ ("rootfiles", copy ["README.md"; "LICENCE*"] "dist/") ]);
    ("typedoc",
      [ ("default",
          typedoc {| module := "commonjs"; out := "dist/default";
                     name := "Leap Motion"; target := "es5";
                     theme := "default" |} "src/default");
        ("minimal",
          typedoc {| module := "commonjs"; out := "dist/minimal";
                     name := "FS Extra"; target := "es5";
                     theme := "minimal" |} "src/minimal") ]);
    ("gh-pages", [ ("dist", gh_pages "dist/" "**/*") ]) ].

(** Modelled from the spec: the four plugins loaded with
    [grunt.loadNpmTasks] are third-party packages whose code is not part of
    this repository.  The list holds the multi tasks they register that the
    configuration and the alias lists name: the spec's clean, generate, copy
    and publish stages.  (The publishing plugin also registers a plain task
    [gh-pages-clean]; nothing in the Gruntfile names it and it is left
    out.) *)
Definition loadNpmTasks : list string :=
  ["copy"; "clean"; "typedoc"; "gh-pages"].

(** [grunt.registerTask(name, ..., taskList)]: the alias tasks. *)
Definition registerTask : list (string * list string) :=
  [ ("build", ["clean"; "typedoc"; "copy"]);
    ("publish", ["build"; "gh-pages"]);
    ("default", ["build"]) ].

(** First binding of a key. *)
Fixpoint assoc {A} (k : string) (l : list (string * A)) : option A :=
  match l with
  | [] => None
  | (k', a) :: l' => if String.eqb k k' then Some a else assoc k l'
  end.

(** One external tool invocation: task, target and the target's data. *)
Definition Stage : Type := (string * string * Target)%type.

(** Modelled from the spec: the task runner is a third-party tool whose
    code is not part of this repository.  Running a task by its bare name,
    as the Gruntfile's alias lists and the fixed task names [build],
    [publish] and [default] write them: an alias task runs the tasks of its
    list in order; a multi task named without a target runs every target of
    its configuration in order.  The runner's [task:target] form is outside
    this model, which answers [None] for it as for an unknown name and for
    exhausted fuel.  Aliases may refer to aliases, so the expansion is
    bounded by [fuel]. *)
Fixpoint run (fuel : nat) (task : string) : option (list Stage) :=
  match fuel with
  | 0 => None
  | S fuel' =>
      match assoc task registerTask with
      | Some tasks => List.concat (A:=Stage) <$> mapM (run fuel') tasks
      | None =>
          if bool_decide (task ∈ loadNpmTasks) then
            Some (match assoc task initConfig with
                  | Some targets => (fun '(t, d) => (task, t, d)) <$> targets
                  | None => []
                  end)
          else None
      end
  end.

(** *** Paths and the copy stage *)

(** Shell-style matching with [*]: any run of characters other than [/]. *)
Fixpoint glob (pat s : string) : bool :=
  match pat with
  | EmptyString => match s with EmptyString => true | _ => false end
  | String a pat' =>
      if Ascii.eqb a "*"%char then
        (fix star (s : string) : bool :=
           glob pat' s ||
           match s with
           | EmptyString => false
           | String c s' => if Ascii.eqb c "/"%char then false else star s'
           end) s
      else
        match s with
        | EmptyString => false
        | String c s' => Ascii.eqb a c && glob pat' s'
        end
  end.

(** The files a [copy] target writes, given the files of the project
    (paths relative to the Gruntfile).  The copy plugin is an external
    tool; for a [dest] written as a directory (trailing [/]) it places
    every file matching one of the [src] patterns at [dest] joined with the
    file's own path. *)
Definition copy_writes (files src : list string) (dest : string)
  : list string :=
  pat ← src; f ← filter (fun f => glob pat f = true) files; [dest +:+ f].

(** The files written by the [copy] stages of a stage sequence. *)
Definition copied (files : list string) (stages : list Stage)
  : list string :=
  st ← stages;
  match st with
  | (_, _, copy src dest) => copy_writes files src dest
  | _ => []
  end.

(** The output directories of the [typedoc] stages of a stage sequence. *)
Definition output_trees (stages : list Stage) : list string :=
  st ← stages;
  match st with
  | (_, _, typedoc options _) => [out options]
  | _ => []
  end.

(** [path] lies inside the directory [dir]. *)
Definition in_tree (dir path : string) : bool :=
  String.prefix (dir +:+ "/") path.

(** The stages of the [build] task. *)
Definition build_stages : list Stage :=
  [ ("clean", "dist", clean ["dist/"]);
    ("typedoc", "default",
      typedoc {| module := "commonjs"; out := "dist/default";
                 name := "Leap Motion"; target := "es5";
                 theme := "default" |} "src/default");
    ("typedoc", "minimal",
      typedoc {| module := "commonjs"; out := "dist/minimal";
                 name := "FS Extra"; target := "es5";
                 theme := "minimal" |} "src/minimal");
    ("copy", "rootfiles", copy ["README.md"; "LICENCE*"] "dist/") ].

Definition sample_files : list string :=
  ["README.md"; "LICENCE"; "Gruntfile.js"; "package.json";
   "src/default/Gesture.ts"; "src/minimal/README.md"].

(** A file has no directory part. *)
Fixpoint root_level (s : string) : bool :=
  match s with
  | EmptyString => true
  | String c s' => negb (Ascii.eqb c "/"%char) && root_level s'
  end.

(** The root static files: [README.md] and the files [LICENCE*]. *)
Definition root_static (f : string) : Prop :=
  f = "README.md" \/ exists r, f = "LICENCE" +:+ r /\ root_level r = true.

End Gruntfile.

(** * The Gruntfile with a hand-written [typedoc] task *)

(** The other Gruntfile of the repository: it loads no [typedoc] plugin,
    registers [typedoc] as a function and keeps the former settings under
    the key [typedocc]. *)
Module GruntfileFunctionTask.

(** [grunt.initConfig({...})] of this Gruntfile. *)
Definition initConfig
  : list (string * list (string * Gruntfile.Target)) :=
  [ ("clean", [ ("dist", Gruntfile.clean ["dist/"]) ]);
    ("copy",
      [ ("rootfiles", Gruntfile.copy ["README.md"; "LICENCE*"] "dist/") ]);
    ("typedocc",
      [ ("default",
          Gruntfile.typedoc
            {| Gruntfile.module := "commonjs";
               Gruntfile.out := "dist/default";
               Gruntfile.name := "Leap Motion";
               Gruntfile.target := "es5";
               Gruntfile.theme := "default" |} "src/default");
        ("minimal",
          Gruntfile.typedoc
            {| Gruntfile.module := "commonjs";
               Gruntfile.out := "dist/minimal";
               Gruntfile.name := "FS Extra";
               Gruntfile.target := "es5";
               Gruntfile.theme := "minimal" |} "src/minimal") ]);
    ("gh-pages", [ ("dist", Gruntfile.gh_pages "dist/" "**/*") ]) ].

Section TypeDoc.

(** What the task takes from Node and from the documentation generator:
    [Path.resolve], the types [TypeDoc.SourceFileMode] and
    [TypeDoc.ScriptTarget] with their members [File] and [ES5], the
    [inputFiles] of a [new TypeDoc.Settings()] and
    [settings.expandInputFiles()]. *)
Variable resolve : string -> string.
Variable SourceFileMode : Type.
Variable ScriptTarget : Type.
Variable File : SourceFileMode.
Variable ES5 : ScriptTarget.
Variable newInputFiles : list string.
Variable expandInputFiles : list string -> list string.





End TypeDoc.

End GruntfileFunctionTask.

(** * Properties of the gesture classes *)

(** ** IEEE-754 equality and truthiness *)

Lemma SFeqb_refl_iff x : SFeqb x x = true <-> x <> NaN.
Proof.
  unfold SFeqb, NaN. destruct x as [s|s| |s m e]; simpl.
  - split; [discriminate | reflexivity].
  - destruct s; (split; [discriminate | reflexivity]).
  - split; [discriminate | intros H; now contradict H].
  - rewrite Z.compare_refl.
    change (Pos.compare_cont Eq m m) with (Pos.compare m m).
    rewrite Pos.compare_refl.
    destruct s; (split; [discriminate | reflexivity]).
Qed.

Lemma SFeqb_true_iff x y :
  SFeqb x y = true <->
  x <> NaN /\ y <> NaN /\ (x = y \/ (is_zero x /\ is_zero y)).
Proof.
  split.
  - intros H. assert (Hx : x <> NaN) by (intros ->; discriminate H).
    assert (Hy : y <> NaN) by (intros ->; destruct x; discriminate H).
    repeat split; [assumption | assumption |].
    unfold SFeqb in H.
    destruct x as [s|s| |s m e], y as [s'|s'| |s' m' e']; simpl in H;
      try discriminate H;
      try (right; split; eexists; reflexivity);
      try (destruct s; discriminate H);
      try (destruct s'; discriminate H); left.
    + destruct s, s'; try discriminate H; reflexivity.
    + change (Pos.compare_cont Eq m m') with (Pos.compare m m') in H.
      destruct s, s'; try discriminate H;
        destruct (Z.compare_spec e e') as [He|He|He]; try discriminate H;
        destruct (Pos.compare_spec m m') as [Hm|Hm|Hm]; try discriminate H;
        subst; reflexivity.
  - intros (Hx & Hy & [->|[[s ->] [s' ->]]]).
    + now apply SFeqb_refl_iff.
    + reflexivity.
Qed.

Lemma loose_eq_true_iff a b : loose_eq a b = true <-> loosely_equal a b.
Proof.
  unfold loosely_equal. destruct a as [|x], b as [|y]; simpl.
  - split; [intros _; left; split; reflexivity | reflexivity].
  - split; [discriminate | intros [[_ H]|(x' & y' & H & _)]; discriminate H].
  - split; [discriminate | intros [[H _]|(x' & y' & _ & H & _)]; discriminate H].
  - rewrite SFeqb_true_iff. split.
    + intros (Hx & Hy & H). right. exists x, y. repeat split; assumption.
    + intros [[H _]|(x' & y' & Ex & Ey & H)]; [discriminate H|].
      injection Ex as <-. injection Ey as <-. exact H.
Qed.

Lemma loose_eq_plain a b :
  plain_id a -> plain_id b -> (loose_eq a b = true <-> a = b).
Proof.
  intros Ha Hb. rewrite loose_eq_true_iff. unfold loosely_equal. split.
  - intros [[-> ->]|(x & y & -> & -> & _ & _ & [->|[Hz _]])];
      [reflexivity | reflexivity |].
    destruct Ha as [_ Ha]. now contradict Ha.
  - intros <-. destruct a as [|x]; [left; split; reflexivity|].
    right. exists x, x. destruct Ha as [Hn _].
    repeat split; try assumption. now left.
Qed.

(** A number is truthy unless it is unset, NaN or a zero. *)
Lemma ToBoolean_true_iff (a : number) :
  ToBoolean a = true <-> exists x, a = defined x /\ x <> NaN /\ ~ is_zero x.
Proof.
  split.
  - destruct a as [|[s|s| |s m e]]; simpl; try discriminate; intros _;
      eexists; (split; [reflexivity|]); (split; [discriminate|]);
      intros [z Hz]; discriminate Hz.
  - intros (x & -> & Hn & Hz). destruct x as [s|s| |s m e]; simpl;
      try reflexivity.
    + contradict Hz. now exists s.
    + now contradict Hn.
Qed.

(** ** Running the methods *)

Lemma get_run {A} (f : Gesture -> A) (h : Heap) r g :
  h !! r = Some g -> get r f h = Some (f g, h).
Proof. intros E. unfold get. now rewrite E. Qed.

Lemma isEqualTo_run (h : Heap) this other g1 g2 :
  h !! this = Some g1 -> h !! other = Some g2 ->
  isEqualTo this other h = Some (loose_eq (id g1) (id g2), h).
Proof.
  intros E1 E2. unfold isEqualTo, mbind, M_bind.
  rewrite (get_run id h this g1 E1), (get_run id h other g2 E2).
  reflexivity.
Qed.

Lemma isValid_run (h : Heap) this g :
  h !! this = Some g ->
  isValid this h = Some (ToBoolean (durationSeconds g), h).
Proof.
  intros E. unfold isValid, mbind, M_bind.
  rewrite (get_run durationSeconds h this g E). unfold logical_not.
  now destruct (ToBoolean (durationSeconds g)).
Qed.

Lemma toString_run (n2s : spec_float -> string) (h : Heap) this g :
  h !! this = Some g ->
  exists s, toString n2s this h = Some (s, h).
Proof.
  intros E. unfold toString, mbind, M_bind.
  rewrite (get_run id h this g E), (get_run duration h this g E),
    (get_run type h this g E).
  eexists. reflexivity.
Qed.

(** Allocation returns a reference that was not in use, leaves every
    existing object as it was and stores the new one. *)
Lemma alloc_run (h : Heap) o :
  alloc o h = Some (List.length h, h ++ [o]) /\
  h !! List.length h = None /\
  (h ++ [o]) !! List.length h = Some o /\
  (forall r g, h !! r = Some g -> (h ++ [o]) !! r = Some g).
Proof.
  split; [reflexivity|]. split; [now apply lookup_ge_None|].
  split.
  - rewrite lookup_app_r by reflexivity. now rewrite Nat.sub_diag.
  - intros r g E. apply lookup_app_l_Some. exact E.
Qed.

Lemma Gesture_new_run (h : Heap) :
  Gesture_new h = Some (List.length h, h ++ [Gesture_fresh PlainGesture]).
Proof. reflexivity. Qed.

Example sample_numbers_are_binary64 :
  Forall (fun x => valid_binary 53 1024 x = true) [seven; eight; half].
Proof. repeat constructor. Qed.

(** ** Equality by identifier *)

(** C1, as amended.  [isEqualTo] returns, leaves the heap alone, and its
    result is [true] exactly when the two [id] fields are loosely equal
    ([==]): both unset, or two numbers other than NaN that are the same
    datum or both zero.  For identifiers that are unset or an ordinary
    number (not NaN, not a zero) that is the same as the [id] fields being
    equal.  No other field matters: any two instances with the same
    identifiers, in any heap, give the same answer. *)
Theorem isEqualTo_by_id (h : Heap) this other g1 g2 :
  h !! this = Some g1 -> h !! other = Some g2 ->
  exists b,
    isEqualTo this other h = Some (b, h) /\
    (b = true <-> loosely_equal (id g1) (id g2)) /\
    (plain_id (id g1) -> plain_id (id g2) -> (b = true <-> id g1 = id g2)) /\
    (forall (h' : Heap) this' other' g1' g2',
        h' !! this' = Some g1' -> h' !! other' = Some g2' ->
        id g1' = id g1 -> id g2' = id g2 ->
        isEqualTo this' other' h' = Some (b, h')).
Proof.
  intros E1 E2. exists (loose_eq (id g1) (id g2)).
  split; [now apply isEqualTo_run|].
  split; [apply loose_eq_true_iff|].
  split; [apply loose_eq_plain|].
  intros h' this' other' g1' g2' E1' E2' <- <-. now apply isEqualTo_run.
Qed.

(** The specification's example: identifier 7 twice, with different
    position and speed. *)
Lemma isEqualTo_by_id_witness :
  exists b,
    isEqualTo 0 1 sample_heap = Some (b, sample_heap) /\
    (b = true <-> loosely_equal (id swipe7) (id swipe7')) /\
    (plain_id (id swipe7) -> plain_id (id swipe7') ->
     (b = true <-> id swipe7 = id swipe7')) /\
    (forall (h' : Heap) this' other' g1' g2',
        h' !! this' = Some g1' -> h' !! other' = Some g2' ->
        id g1' = id swipe7 -> id g2' = id swipe7' ->
        isEqualTo this' other' h' = Some (b, h')).
Proof.
  apply (isEqualTo_by_id sample_heap 0 1 swipe7 swipe7'); reflexivity.
Defined.

Example isEqualTo_seven_seven :
  isEqualTo 0 1 sample_heap = Some (true, sample_heap).
Proof. reflexivity. Qed.

Example isEqualTo_seven_eight :
  isEqualTo 0 2 sample_heap = Some (false, sample_heap).
Proof. reflexivity. Qed.

(** C1 as stated fails in both directions: a gesture whose identifier is
    NaN is not equal to itself although its [id] is equal to itself, and
    gestures with identifiers [+0] and [-0] are equal although the [id]
    fields differ. *)
Lemma isEqualTo_not_id_identity :
  (id nan_gesture = id nan_gesture /\
   isEqualTo 0 0 [nan_gesture] = Some (false, [nan_gesture])) /\
  (id plus_zero_gesture <> id minus_zero_gesture /\
   isEqualTo 0 1 [plus_zero_gesture; minus_zero_gesture]
   = Some (true, [plus_zero_gesture; minus_zero_gesture])).
Proof.
  split; split; try reflexivity. discriminate.
Qed.

(** ** Validity *)

(** C2, as amended.  [isValid] returns [true] exactly when
    [durationSeconds] is truthy: it holds a number that is neither NaN nor
    a zero.  A gesture whose [durationSeconds] was never recorded reports
    invalid. *)
Theorem isValid_iff_truthy_duration (h : Heap) this g :
  h !! this = Some g ->
  exists b,
    isValid this h = Some (b, h) /\
    (b = true <->
     exists x, durationSeconds g = defined x /\ x <> NaN /\ ~ is_zero x) /\
    (durationSeconds g = undefined -> b = false).
Proof.
  intros E. exists (ToBoolean (durationSeconds g)).
  split; [now apply isValid_run|].
  split; [apply ToBoolean_true_iff|].
  intros ->. reflexivity.
Qed.

Lemma isValid_iff_truthy_duration_witness :
  exists b,
    isValid 0 sample_heap = Some (b, sample_heap) /\
    (b = true <->
     exists x, durationSeconds swipe7 = defined x /\ x <> NaN /\ ~ is_zero x) /\
    (durationSeconds swipe7 = undefined -> b = false).
Proof.
  apply (isValid_iff_truthy_duration sample_heap 0 swipe7). reflexivity.
Defined.

Example isValid_populated : isValid 0 sample_heap = Some (true, sample_heap).
Proof. reflexivity. Qed.

(** C2 as stated fails: a gesture whose [duration] and [durationSeconds]
    are both populated, with the number 0, reports invalid. *)
Lemma isValid_populated_zero_invalid :
  duration zero_duration_gesture <> undefined /\
  durationSeconds zero_duration_gesture <> undefined /\
  isValid 0 [zero_duration_gesture] = Some (false, [zero_duration_gesture]).
Proof.
  repeat split; try discriminate.
Qed.

(** C8.  A gesture whose [durationSeconds] is the number 0 (of either sign)
    reports invalid, just as every gesture whose [durationSeconds] was
    never set. *)
Theorem isValid_zero_duration (h : Heap) this g s :
  h !! this = Some g ->
  durationSeconds g = defined (zero s) ->
  isValid this h = Some (false, h) /\
  (forall that g', h !! that = Some g' -> durationSeconds g' = undefined ->
                   isValid that h = isValid this h).
Proof.
  intros E Hz.
  assert (Hv : isValid this h = Some (false, h)).
  { rewrite (isValid_run h this g E), Hz. reflexivity. }
  split; [exact Hv|].
  intros that g' E' Hu. rewrite Hv, (isValid_run h that g' E'), Hu.
  reflexivity.
Qed.

Lemma isValid_zero_duration_witness :
  isValid 0 [zero_duration_gesture; Gesture_fresh PlainGesture]
  = Some (false, [zero_duration_gesture; Gesture_fresh PlainGesture]) /\
  (forall that g',
      [zero_duration_gesture; Gesture_fresh PlainGesture] !! that = Some g' ->
      durationSeconds g' = undefined ->
      isValid that [zero_duration_gesture; Gesture_fresh PlainGesture]
      = isValid 0 [zero_duration_gesture; Gesture_fresh PlainGesture]).
Proof.
  apply (isValid_zero_duration
           [zero_duration_gesture; Gesture_fresh PlainGesture] 0
           zero_duration_gesture false); reflexivity.
Defined.

(** ** The invalid gesture *)

(** C3.  In every heap, [Gesture.invalid()] returns a reference to an
    actual [Gesture] object, and [isValid()] on that object returns
    [false]. *)
Theorem invalid_reports_invalid (h : Heap) :
  exists r h' g,
    invalid h = Some (r, h') /\
    h' !! r = Some g /\
    isValid r h' = Some (false, h') /\
    (r ← invalid; isValid r) h = Some (false, h').
Proof.
  destruct (alloc_run h (Gesture_fresh PlainGesture)) as (Ea & _ & El & _).
  exists (List.length h), (h ++ [Gesture_fresh PlainGesture]),
    (Gesture_fresh PlainGesture).
  assert (Hv : isValid (List.length h) (h ++ [Gesture_fresh PlainGesture])
               = Some (false, h ++ [Gesture_fresh PlainGesture])).
  { rewrite (isValid_run _ _ _ El). reflexivity. }
  split; [exact Ea|]. split; [exact El|]. split; [exact Hv|].
  unfold mbind, M_bind, invalid. rewrite Gesture_new_run. exact Hv.
Qed.

Lemma invalid_twice_run (h : Heap) :
  invalid_twice h
  = Some ((List.length h, S (List.length h)),
          h ++ [Gesture_fresh PlainGesture; Gesture_fresh PlainGesture]).
Proof.
  unfold invalid_twice, mbind, M_bind, invalid. rewrite !Gesture_new_run.
  unfold mret, M_ret. rewrite length_app, Nat.add_1_r, <- app_assoc.
  reflexivity.
Qed.

(** C4, as amended.  [Gesture.invalid()] constructs a new object on every
    call: two calls return two distinct references, neither in use before.
    The two objects have the same field values, are equal to each other
    under [isEqualTo] in both directions, and both report invalid.  Any
    gesture that existed before the calls compares equal to either result
    under [isEqualTo] exactly when its own [id] is unset. *)
Theorem invalid_fresh_each_call (h : Heap) :
  exists r1 r2 h2 g,
    invalid_twice h = Some ((r1, r2), h2) /\
    r1 <> r2 /\
    h !! r1 = None /\ h !! r2 = None /\
    h2 !! r1 = Some g /\ h2 !! r2 = Some g /\
    isEqualTo r1 r2 h2 = Some (true, h2) /\
    isEqualTo r2 r1 h2 = Some (true, h2) /\
    isValid r1 h2 = Some (false, h2) /\
    isValid r2 h2 = Some (false, h2) /\
    (forall this g0,
        h !! this = Some g0 ->
        exists b,
          isEqualTo this r1 h2 = Some (b, h2) /\
          isEqualTo this r2 h2 = Some (b, h2) /\
          (b = true <-> id g0 = undefined)).
Proof.
  set (o := Gesture_fresh PlainGesture).
  exists (List.length h), (S (List.length h)), (h ++ [o; o]), o.
  assert (E1 : (h ++ [o; o]) !! List.length h = Some o).
  { rewrite lookup_app_r by reflexivity. now rewrite Nat.sub_diag. }
  assert (E2 : (h ++ [o; o]) !! S (List.length h) = Some o).
  { rewrite lookup_app_r by apply Nat.le_succ_diag_r.
    now rewrite Nat.sub_succ_l, Nat.sub_diag by reflexivity. }
  split; [apply invalid_twice_run|].
  split; [apply Nat.neq_succ_diag_r|].
  split; [now apply lookup_ge_None|].
  split; [apply lookup_ge_None, Nat.le_succ_diag_r|].
  split; [exact E1|]. split; [exact E2|].
  rewrite (isEqualTo_run _ _ _ _ _ E1 E2), (isEqualTo_run _ _ _ _ _ E2 E1),
    (isValid_run _ _ _ E1), (isValid_run _ _ _ E2).
  repeat (split; [reflexivity|]).
  intros this g0 E0. exists (loose_eq (id g0) undefined).
  assert (E0' : (h ++ [o; o]) !! this = Some g0)
    by now apply lookup_app_l_Some.
  rewrite (isEqualTo_run _ _ _ _ _ E0' E1), (isEqualTo_run _ _ _ _ _ E0' E2).
  repeat (split; [reflexivity|]).
  destruct (id g0); simpl; split; try discriminate; reflexivity.
Qed.

Lemma invalid_fresh_each_call_witness :
  exists r1 r2 h2 g,
    invalid_twice [unnamed_valid; zero_duration_gesture]
    = Some ((r1, r2), h2) /\
    r1 <> r2 /\
    [unnamed_valid; zero_duration_gesture] !! r1 = None /\
    [unnamed_valid; zero_duration_gesture] !! r2 = None /\
    h2 !! r1 = Some g /\ h2 !! r2 = Some g /\
    isEqualTo r1 r2 h2 = Some (true, h2) /\
    isEqualTo r2 r1 h2 = Some (true, h2) /\
    isValid r1 h2 = Some (false, h2) /\
    isValid r2 h2 = Some (false, h2) /\
    (forall this g0,
        [unnamed_valid; zero_duration_gesture] !! this = Some g0 ->
        exists b,
          isEqualTo this r1 h2 = Some (b, h2) /\
          isEqualTo this r2 h2 = Some (b, h2) /\
          (b = true <-> id g0 = undefined)).
Proof.
  apply (invalid_fresh_each_call [unnamed_valid; zero_duration_gesture]).
Defined.

(** C4 as stated fails.  Starting from the empty heap, two calls of
    [Gesture.invalid()] return the references 0 and 1, two different
    objects.  And comparing with the result does not test validity: a
    valid gesture whose [id] is unset compares equal to it, and an invalid
    gesture that has an [id] does not. *)
Lemma invalid_not_shared :
  (invalid_twice []
   = Some ((0, 1), [Gesture_fresh PlainGesture; Gesture_fresh PlainGesture]) /\
   0 <> 1) /\
  (isValid 0 [unnamed_valid; zero_duration_gesture]
   = Some (true, [unnamed_valid; zero_duration_gesture]) /\
   fst <$> equals_invalid 0 [unnamed_valid; zero_duration_gesture]
   = Some true) /\
  (isValid 1 [unnamed_valid; zero_duration_gesture]
   = Some (false, [unnamed_valid; zero_duration_gesture]) /\
   fst <$> equals_invalid 1 [unnamed_valid; zero_duration_gesture]
   = Some false).
Proof.
  split; [split; [reflexivity | discriminate]|].
  split; split; reflexivity.
Qed.

(** ** No mutation *)

(** C5.  On instances [this] and [other] of a heap [h], each of
    [isEqualTo], [isValid] and [toString] returns with the heap exactly as it
    was, so every field of every object is unchanged; [Gesture.invalid()]
    only adds its result to the heap and leaves every object that existed,
    [this] and [other] included, as it was. *)
Theorem methods_leave_fields_unchanged
    (NumberToString : spec_float -> string) (h : Heap) this other g g' :
  h !! this = Some g -> h !! other = Some g' ->
  (exists b, isEqualTo this other h = Some (b, h)) /\
  (exists b, isValid this h = Some (b, h)) /\
  (exists s, toString NumberToString this h = Some (s, h)) /\
  (exists r h',
      invalid h = Some (r, h') /\
      h !! r = None /\
      h' !! this = Some g /\ h' !! other = Some g' /\
      (forall r0 g0, h !! r0 = Some g0 -> h' !! r0 = Some g0)).
Proof.
  intros E E'.
  split; [eexists; now apply (isEqualTo_run h this other g g')|].
  split; [eexists; now apply (isValid_run h this g)|].
  split; [now apply (toString_run NumberToString h this g)|].
  destruct (alloc_run h (Gesture_fresh PlainGesture)) as (Ea & En & _ & Ek).
  exists (List.length h), (h ++ [Gesture_fresh PlainGesture]).
  split; [exact Ea|]. split; [exact En|].
  split; [now apply Ek|]. split; [now apply Ek|]. exact Ek.
Qed.

Lemma methods_leave_fields_unchanged_witness :
  (exists b, isEqualTo 0 2 sample_heap = Some (b, sample_heap)) /\
  (exists b, isValid 0 sample_heap = Some (b, sample_heap)) /\
  (exists s, toString render_sample 0 sample_heap = Some (s, sample_heap)) /\
  (exists r h',
      invalid sample_heap = Some (r, h') /\
      sample_heap !! r = None /\
      h' !! 0 = Some swipe7 /\ h' !! 2 = Some swipe8 /\
      (forall r0 g0, sample_heap !! r0 = Some g0 -> h' !! r0 = Some g0)).
Proof.
  apply (methods_leave_fields_unchanged render_sample sample_heap 0 2
           swipe7 swipe8); reflexivity.
Defined.

Example toString_sample :
  toString render_sample 0 sample_heap
  = Some ("[Gesture id:7 duration:8 type:5]", sample_heap).
Proof. reflexivity. Qed.

(** ** Construction *)

Lemma alloc_constructs (h : Heap) o (P : Gesture -> Prop) :
  P o -> constructs (alloc o) h P.
Proof.
  intros Ho. destruct (alloc_run h o) as (Ea & En & El & Ek).
  exists (List.length h), (h ++ [o]), o. repeat split; assumption.
Qed.

(** C9.  In every heap, [new Gesture()], [Gesture.invalid()] and
    [new SwipeGesture()] each take no argument and yield an object whose
    [hands] and [pointables] are empty arrays and whose [id], [duration],
    [durationSeconds], [frame], [state] and [type] are unset; no subclass
    field is set and no existing object is touched. *)
Theorem constructor_initial_fields (h : Heap) :
  constructs Gesture_new h
    (fun g => freshly_constructed g /\ subclass g = PlainGesture) /\
  constructs invalid h
    (fun g => freshly_constructed g /\ subclass g = PlainGesture) /\
  constructs SwipeGesture_new h
    (fun g => freshly_constructed g /\
              exists f, subclass g = SwipeGesture f /\
                        direction f = undefined /\ pointable f = undefined /\
                        position f = undefined /\ speed f = undefined /\
                        startPosition f = undefined).
Proof.
  split; [|split]; apply alloc_constructs.
  - repeat split.
  - repeat split.
  - split; [repeat split|]. eexists. repeat split.
Qed.

(** * Further properties of the gesture classes *)

(** ** [isEqualTo] as a relation *)

Lemma SFeqb_sym x y : SFeqb x y = SFeqb y x.
Proof.
  destruct (SFeqb x y) eqn:E, (SFeqb y x) eqn:E'; try reflexivity.
  - apply SFeqb_true_iff in E as (Hx & Hy & H).
    rewrite <- E'. symmetry. apply SFeqb_true_iff.
    repeat split; try assumption. destruct H as [->|[Hzx Hzy]]; [now left|].
    right. now split.
  - apply SFeqb_true_iff in E' as (Hy & Hx & H).
    rewrite <- E. apply SFeqb_true_iff.
    repeat split; try assumption. destruct H as [->|[Hzy Hzx]]; [now left|].
    right. now split.
Qed.

Lemma loose_eq_sym a b : loose_eq a b = loose_eq b a.
Proof. destruct a, b; simpl; try reflexivity. apply SFeqb_sym. Qed.

Lemma loose_eq_trans a b c :
  loose_eq a b = true -> loose_eq b c = true -> loose_eq a c = true.
Proof.
  destruct a as [|x], b as [|y], c as [|z]; simpl; try discriminate;
    [reflexivity|].
  rewrite !SFeqb_true_iff. intros (Hx & Hy & Hxy) (_ & Hz & Hyz).
  repeat split; try assumption.
  destruct Hxy as [->|[Zx Zy]], Hyz as [->|[Zy' Zz]].
  - now left.
  - right. now split.
  - right. now split.
  - right. now split.
Qed.

Lemma isEqualTo_Some_inv (h h' : Heap) this other b :
  isEqualTo this other h = Some (b, h') ->
  exists g1 g2,
    h !! this = Some g1 /\ h !! other = Some g2 /\
    b = loose_eq (id g1) (id g2) /\ h' = h.
Proof.
  unfold isEqualTo, mbind, M_bind, get.
  destruct (h !! this) as [g1|]; [|discriminate].
  destruct (h !! other) as [g2|]; [|discriminate].
  intros [= <- <-]. exists g1, g2. repeat split.
Qed.

Lemma isEqualTo_None_iff (h : Heap) this other :
  isEqualTo this other h = None <-> h !! this = None \/ h !! other = None.
Proof.
  unfold isEqualTo, mbind, M_bind, get.
  destruct (h !! this) as [g1|], (h !! other) as [g2|]; simpl;
    (split; [try discriminate; auto | intros [H|H]; try discriminate H; auto]).
Qed.

(** X1.  [isEqualTo] is symmetric: [a.isEqualTo(b)] and [b.isEqualTo(a)]
    give the same result, and one raises exactly when the other does. *)
Theorem isEqualTo_symmetric (h : Heap) this other :
  isEqualTo this other h = isEqualTo other this h.
Proof.
  destruct (h !! this) as [g1|] eqn:E1, (h !! other) as [g2|] eqn:E2.
  - rewrite (isEqualTo_run h this other g1 g2 E1 E2),
      (isEqualTo_run h other this g2 g1 E2 E1), loose_eq_sym.
    reflexivity.
  - transitivity (@None (bool * Heap)); [|symmetry];
      apply isEqualTo_None_iff; auto.
  - transitivity (@None (bool * Heap)); [|symmetry];
      apply isEqualTo_None_iff; auto.
  - transitivity (@None (bool * Heap)); [|symmetry];
      apply isEqualTo_None_iff; auto.
Qed.

(** X2.  [isEqualTo] is transitive: if [a] equals [b] and [b] equals [c]
    then [a] equals [c]. *)
Theorem isEqualTo_transitive (h : Heap) a b c :
  isEqualTo a b h = Some (true, h) ->
  isEqualTo b c h = Some (true, h) ->
  isEqualTo a c h = Some (true, h).
Proof.
  intros Hab Hbc.
  apply isEqualTo_Some_inv in Hab as (ga & gb & Ea & Eb & Hab & _).
  apply isEqualTo_Some_inv in Hbc as (gb' & gc & Eb' & Ec & Hbc & _).
  rewrite Eb in Eb'. injection Eb' as <-.
  rewrite (isEqualTo_run h a c ga gc Ea Ec).
  now rewrite (loose_eq_trans (id ga) (id gb) (id gc)).
Qed.

Lemma isEqualTo_transitive_witness :
  isEqualTo 0 1 [plus_zero_gesture; minus_zero_gesture; plus_zero_gesture]
  = Some (true, [plus_zero_gesture; minus_zero_gesture; plus_zero_gesture]) /\
  isEqualTo 1 2 [plus_zero_gesture; minus_zero_gesture; plus_zero_gesture]
  = Some (true, [plus_zero_gesture; minus_zero_gesture; plus_zero_gesture]) /\
  isEqualTo 0 2 [plus_zero_gesture; minus_zero_gesture; plus_zero_gesture]
  = Some (true, [plus_zero_gesture; minus_zero_gesture; plus_zero_gesture]).
Proof.
  split; [reflexivity|]. split; [reflexivity|].
  apply (isEqualTo_transitive
           [plus_zero_gesture; minus_zero_gesture; plus_zero_gesture] 0 1 2);
    reflexivity.
Defined.

(** X3.  A gesture is equal to itself exactly when its identifier is not
    NaN; in particular every gesture whose identifier is unset is. *)
Theorem isEqualTo_reflexive_iff (h : Heap) this g :
  h !! this = Some g ->
  (isEqualTo this this h = Some (true, h) <-> id g <> defined NaN) /\
  (id g = undefined -> isEqualTo this this h = Some (true, h)).
Proof.
  intros E. rewrite (isEqualTo_run h this this g g E E).
  destruct (id g) as [|x]; simpl.
  - split; [split; [discriminate | reflexivity] | reflexivity].
  - split; [|discriminate]. split.
    + intros [= H]. apply SFeqb_refl_iff in H. congruence.
    + intros H. f_equal. f_equal. apply SFeqb_refl_iff. congruence.
Qed.

Lemma isEqualTo_reflexive_iff_witness :
  (isEqualTo 0 0 sample_heap = Some (true, sample_heap)
   <-> id swipe7 <> defined NaN) /\
  (id swipe7 = undefined ->
   isEqualTo 0 0 sample_heap = Some (true, sample_heap)).
Proof.
  apply (isEqualTo_reflexive_iff sample_heap 0 swipe7). reflexivity.
Defined.

(** ** Missing objects *)

(** X4.  No method guards against a missing object: [isEqualTo] raises
    exactly when the receiver or the argument is not an object (it never
    answers [false] for a missing argument), and [isValid] and [toString]
    raise exactly when the receiver is not an object. *)
Theorem methods_raise_iff_not_object
    (NumberToString : spec_float -> string) (h : Heap) this other :
  (isEqualTo this other h = None <->
   h !! this = None \/ h !! other = None) /\
  (isValid this h = None <-> h !! this = None) /\
  (toString NumberToString this h = None <-> h !! this = None).
Proof.
  split; [apply isEqualTo_None_iff|]. split.
  - destruct (h !! this) as [g|] eqn:E.
    + rewrite (isValid_run h this g E). split; discriminate.
    + unfold isValid, mbind, M_bind, get. rewrite E. split; reflexivity.
  - destruct (h !! this) as [g|] eqn:E.
    + destruct (toString_run NumberToString h this g E) as [s ->].
      split; discriminate.
    + unfold toString, mbind, M_bind, get. rewrite E. split; reflexivity.
Qed.

(** ** Comparing with the invalid gesture *)

(** X5.  [g.isEqualTo(Gesture.invalid())] answers [true] exactly when the
    identifier of [g] is unset, whatever the duration of [g]: the comparison
    tests the identifier, not validity.  The call leaves [g] as it was. *)
Theorem equals_invalid_tests_id (h : Heap) this g :
  h !! this = Some g ->
  exists b h',
    equals_invalid this h = Some (b, h') /\
    (b = true <-> id g = undefined) /\
    h' !! this = Some g.
Proof.
  intros E.
  destruct (alloc_run h (Gesture_fresh PlainGesture)) as (_ & _ & El & Ek).
  exists (loose_eq (id g) undefined), (h ++ [Gesture_fresh PlainGesture]).
  split; [|split].
  - unfold equals_invalid, mbind, M_bind, invalid. rewrite Gesture_new_run.
    apply (isEqualTo_run _ _ _ g (Gesture_fresh PlainGesture));
      [now apply Ek | exact El].
  - destruct (id g); simpl; split; try discriminate; reflexivity.
  - now apply Ek.
Qed.

Lemma equals_invalid_tests_id_witness :
  exists b h',
    equals_invalid 0 [unnamed_valid; zero_duration_gesture] = Some (b, h') /\
    (b = true <-> id unnamed_valid = undefined) /\
    h' !! 0 = Some unnamed_valid.
Proof.
  apply (equals_invalid_tests_id [unnamed_valid; zero_duration_gesture] 0
           unnamed_valid).
  reflexivity.
Defined.

(** A valid gesture that equals the invalid gesture, and an invalid one
    that does not. *)
Example equals_invalid_is_not_validity :
  isValid 0 [unnamed_valid; zero_duration_gesture]
  = Some (true, [unnamed_valid; zero_duration_gesture]) /\
  fst <$> equals_invalid 0 [unnamed_valid; zero_duration_gesture]
  = Some true /\
  isValid 1 [unnamed_valid; zero_duration_gesture]
  = Some (false, [unnamed_valid; zero_duration_gesture]) /\
  fst <$> equals_invalid 1 [unnamed_valid; zero_duration_gesture]
  = Some false.
Proof. repeat split. Qed.

(** X6.  In every heap, a newly constructed [SwipeGesture] reports invalid
    and is equal, in both directions, to the gesture [Gesture.invalid()]
    returns afterwards; the two calls add exactly these two objects. *)
Theorem fresh_swipe_is_invalid (h : Heap) :
  exists s i,
    fresh_swipe_against_invalid h = Some ((true, true, false), h ++ [s; i]) /\
    freshly_constructed s /\ freshly_constructed i /\
    (exists f, subclass s = SwipeGesture f) /\ subclass i = PlainGesture.
Proof.
  eexists _, _. split.
  - unfold fresh_swipe_against_invalid, mbind, M_bind, SwipeGesture_new,
      invalid, Gesture_new, alloc.
    set (s := Gesture_fresh (SwipeGesture _)).
    set (i := Gesture_fresh PlainGesture).
    assert (Es : ((h ++ [s]) ++ [i]) !! List.length h = Some s).
    { rewrite <- app_assoc. rewrite lookup_app_r by reflexivity.
      now rewrite Nat.sub_diag. }
    assert (Ei : ((h ++ [s]) ++ [i]) !! List.length (h ++ [s]) = Some i).
    { rewrite lookup_app_r by reflexivity. now rewrite Nat.sub_diag. }
    rewrite (isEqualTo_run _ _ _ s i Es Ei), (isEqualTo_run _ _ _ i s Ei Es),
      (isValid_run _ _ s Es).
    unfold mret, M_ret. simpl. rewrite <- app_assoc. reflexivity.
  - repeat split. eexists. reflexivity.
Qed.

(** ** The enumerations *)

(** X7.  The numeric values of the two enumerations identify their
    members: each enumeration is injective, no state shares its value with
    a type, and [SwipeGesture.classType] is the value of [TYPE_SWIPE] and of
    no other type. *)
Theorem enum_values_identify_members :
  (forall s s', State_value s = State_value s' -> s = s') /\
  (forall t t', GestureType_value t = GestureType_value t' -> t = t') /\
  (forall s t, State_value s <> GestureType_value t) /\
  (forall t, GestureType_value t = SwipeGesture_classType <-> t = TYPE_SWIPE).
Proof.
  split; [|split; [|split]].
  - intros [] []; simpl; intros H; try reflexivity; discriminate H.
  - intros [] []; simpl; intros H; try reflexivity; discriminate H.
  - intros [] []; discriminate.
  - intros []; unfold SwipeGesture_classType; simpl;
      (split; [intros H; try reflexivity; discriminate H
              | intros H; try reflexivity; discriminate H]).
Qed.

(** * Properties of the build pipeline *)

Module GruntfileFacts.
Import Gruntfile.

(** ** Fuel *)

Lemma run_fuel_S (fuel : nat) :
  forall task stages,
    run fuel task = Some stages -> run (S fuel) task = Some stages.
Proof.
  induction fuel as [|fuel IH]; intros task stages H; [discriminate H|].
  change (run (S (S fuel)) task) with
    (match assoc task registerTask with
     | Some tasks => List.concat (A:=Stage) <$> mapM (run (S fuel)) tasks
     | None =>
         if bool_decide (task ∈ loadNpmTasks) then
           Some (match assoc task initConfig with
                 | Some targets => (fun '(t, d) => (task, t, d)) <$> targets
                 | None => []
                 end)
         else None
     end).
  change (run (S fuel) task) with
    (match assoc task registerTask with
     | Some tasks => List.concat (A:=Stage) <$> mapM (run fuel) tasks
     | None =>
         if bool_decide (task ∈ loadNpmTasks) then
           Some (match assoc task initConfig with
                 | Some targets => (fun '(t, d) => (task, t, d)) <$> targets
                 | None => []
                 end)
         else None
     end) in H.
  destruct (assoc task registerTask) as [tasks|]; [|exact H].
  apply fmap_Some in H as (parts & Hparts & ->).
  apply fmap_Some. exists parts. split; [|reflexivity].
  apply mapM_Some. apply mapM_Some in Hparts.
  eapply Forall2_impl; [exact Hparts|]. intros t l. apply IH.
Qed.

Lemma run_fuel_le (n m : nat) task stages :
  n <= m -> run n task = Some stages -> run m task = Some stages.
Proof.
  induction 1 as [|m _ IH]; intros H; [exact H|].
  apply run_fuel_S, IH, H.
Qed.

(** ** Strings and paths *)

Lemma prefix_inv (p s : string) :
  String.prefix p s = true -> exists r, s = p +:+ r.
Proof.
  revert s. induction p as [|a p IH]; intros s H; simpl in H.
  - exists s. reflexivity.
  - destruct s as [|b s]; [discriminate H|]. simpl in H.
    destruct (ascii_dec a b) as [<-|]; [|discriminate H].
    destruct (IH s H) as [r ->]. exists r. reflexivity.
Qed.

(** A literal character of the pattern must be the next character. *)
Lemma glob_literal a pat s :
  Ascii.eqb a "*"%char = false ->
  glob (String a pat) s = true ->
  exists s', s = String a s' /\ glob pat s' = true.
Proof.
  intros Ha H. simpl in H. rewrite Ha in H.
  destruct s as [|c s']; [discriminate H|].
  apply andb_prop in H as [Hc H]. apply Ascii.eqb_eq in Hc as <-.
  exists s'. split; [reflexivity | exact H].
Qed.

Lemma glob_empty s : glob EmptyString s = true -> s = EmptyString.
Proof. destruct s; [reflexivity | discriminate]. Qed.

Lemma glob_star s : glob "*" s = true -> root_level s = true.
Proof.
  induction s as [|c s IH]; [reflexivity|].
  intros H. simpl in H. simpl.
  destruct (Ascii.eqb c "/"%char); [discriminate H|]. simpl.
  apply IH. simpl. exact H.
Qed.

Lemma glob_README f : glob "README.md" f = true -> f = "README.md".
Proof.
  intros H.
  repeat (apply glob_literal in H as (? & -> & H); [|reflexivity]).
  apply glob_empty in H as ->. reflexivity.
Qed.

Lemma glob_LICENCE f :
  glob "LICENCE*" f = true ->
  exists r, f = "LICENCE" +:+ r /\ root_level r = true.
Proof.
  intros H.
  repeat (apply glob_literal in H as (? & -> & H); [|reflexivity]).
  eexists. split; [reflexivity|]. now apply glob_star.
Qed.

Lemma copied_build_inv (files : list string) w :
  w ∈ copied files build_stages ->
  exists f, f ∈ files /\ root_static f /\ w = "dist/" +:+ f.
Proof.
  unfold copied, build_stages. cbn [mbind list_bind app]. rewrite !app_nil_r.
  unfold copy_writes. intros H.
  apply list_elem_of_bind in H as (pat & H & Hpat).
  apply list_elem_of_bind in H as (f & H & Hf).
  apply list_elem_of_singleton in H as ->.
  apply list_elem_of_filter in Hf as [Hglob Hf].
  exists f. split; [exact Hf|]. split; [|reflexivity].
  apply elem_of_cons in Hpat as [->|Hpat].
  - left. now apply glob_README.
  - apply list_elem_of_singleton in Hpat as ->. right.
    now apply glob_LICENCE.
Qed.

Lemma glob_star_root_level s : root_level s = true -> glob "*" s = true.
Proof.
  induction s as [|c s IH]; [reflexivity|].
  intros H. simpl in H. simpl.
  destruct (Ascii.eqb c "/"%char); [discriminate H|]. simpl in H.
  apply IH in H. simpl in H. exact H.
Qed.

Lemma root_static_glob f :
  root_static f ->
  glob "README.md" f = true \/ glob "LICENCE*" f = true.
Proof.
  intros [->|(r & -> & Hr)]; [left; reflexivity|]. right.
  apply glob_star_root_level in Hr. simpl. simpl in Hr. exact Hr.
Qed.

Lemma copied_build_intro (files : list string) f :
  f ∈ files -> root_static f ->
  "dist/" +:+ f ∈ copied files build_stages.
Proof.
  intros Hf Hs. unfold copied, build_stages. cbn [mbind list_bind app].
  rewrite !app_nil_r. unfold copy_writes.
  apply list_elem_of_bind.
  destruct (root_static_glob f Hs) as [Hg|Hg];
    [exists "README.md" | exists "LICENCE*"];
    (split; [|repeat constructor]);
    apply list_elem_of_bind; exists f;
    (split; [left | apply list_elem_of_filter; split; assumption]).
Qed.

Lemma root_static_outside f :
  root_static f ->
  in_tree "dist/default" ("dist/" +:+ f) = false /\
  in_tree "dist/minimal" ("dist/" +:+ f) = false.
Proof.
  intros [->|(r & -> & _)]; split; reflexivity.
Qed.

Lemma trees_disjoint p :
  ~ (in_tree "dist/default" p = true /\ in_tree "dist/minimal" p = true).
Proof.
  intros [H1 H2]. unfold in_tree in *.
  apply prefix_inv in H1 as [r1 ->]. apply prefix_inv in H2 as [r2 H2].
  discriminate H2.
Qed.

(** ** The task sequences *)

(** C6.  With fuel for the three levels of task names, [build] runs the
    fixed sequence: [clean] of [dist/]; [typedoc] on [src/default] into
    [dist/default] with theme [default], then on [src/minimal] into
    [dist/minimal] with theme [minimal]; [copy] of [README.md] and
    [LICENCE*] into [dist/].  [publish] runs exactly that sequence
    followed by the [gh-pages] push of [dist/]. *)
Theorem build_and_publish_sequence (fuel : nat) :
  3 <= fuel ->
  run fuel "build"
  = Some [ ("clean", "dist", clean ["dist/"]);
           ("typedoc", "default",
             typedoc {| module := "commonjs"; out := "dist/default";
                        name := "Leap Motion"; target := "es5";
                        theme := "default" |} "src/default");
           ("typedoc", "minimal",
             typedoc {| module := "commonjs"; out := "dist/minimal";
                        name := "FS Extra"; target := "es5";
                        theme := "minimal" |} "src/minimal");
           ("copy", "rootfiles", copy ["README.md"; "LICENCE*"] "dist/") ] /\
  (exists stages,
      run fuel "build" = Some stages /\
      run fuel "publish"
      = Some (stages ++ [("gh-pages", "dist", gh_pages "dist/" "**/*")])).
Proof.
  intros Hfuel.
  assert (Hb : run fuel "build" = Some build_stages)
    by (apply (run_fuel_le 3); [exact Hfuel | reflexivity]).
  split; [exact Hb|]. exists build_stages. split; [exact Hb|].
  apply (run_fuel_le 3); [exact Hfuel | reflexivity].
Qed.

Lemma build_and_publish_sequence_witness :
  run 3 "build"
  = Some [ ("clean", "dist", clean ["dist/"]);
           ("typedoc", "default",
             typedoc {| module := "commonjs"; out := "dist/default";
                        name := "Leap Motion"; target := "es5";
                        theme := "default" |} "src/default");
           ("typedoc", "minimal",
             typedoc {| module := "commonjs"; out := "dist/minimal";
                        name := "FS Extra"; target := "es5";
                        theme := "minimal" |} "src/minimal");
           ("copy", "rootfiles", copy ["README.md"; "LICENCE*"] "dist/") ] /\
  (exists stages,
      run 3 "build" = Some stages /\
      run 3 "publish"
      = Some (stages ++ [("gh-pages", "dist", gh_pages "dist/" "**/*")])).
Proof.
  apply (build_and_publish_sequence 3). apply Nat.le_refl.
Defined.

(** C10.  With fuel for the three levels of task names, [default] runs
    the stage sequence of [build] and nothing more: [clean] of [dist/],
    [typedoc] for [src/default] and then for [src/minimal], [copy] of the
    root static files into [dist/]. *)
Theorem default_is_build (fuel : nat) :
  3 <= fuel ->
  run fuel "default" = run fuel "build" /\
  run fuel "default"
  = Some [ ("clean", "dist", clean ["dist/"]);
           ("typedoc", "default",
             typedoc {| module := "commonjs"; out := "dist/default";
                        name := "Leap Motion"; target := "es5";
                        theme := "default" |} "src/default");
           ("typedoc", "minimal",
             typedoc {| module := "commonjs"; out := "dist/minimal";
                        name := "FS Extra"; target := "es5";
                        theme := "minimal" |} "src/minimal");
           ("copy", "rootfiles", copy ["README.md"; "LICENCE*"] "dist/") ].
Proof.
  intros Hfuel.
  assert (Hd : run fuel "default" = Some build_stages)
    by (apply (run_fuel_le 3); [exact Hfuel | reflexivity]).
  assert (Hb : run fuel "build" = Some build_stages)
    by (apply (run_fuel_le 3); [exact Hfuel | reflexivity]).
  split; [now rewrite Hd, Hb | exact Hd].
Qed.

Lemma default_is_build_witness :
  run 4 "default" = run 4 "build" /\
  run 4 "default"
  = Some [ ("clean", "dist", clean ["dist/"]);
           ("typedoc", "default",
             typedoc {| module := "commonjs"; out := "dist/default";
                        name := "Leap Motion"; target := "es5";
                        theme := "default" |} "src/default");
           ("typedoc", "minimal",
             typedoc {| module := "commonjs"; out := "dist/minimal";
                        name := "FS Extra"; target := "es5";
                        theme := "minimal" |} "src/minimal");
           ("copy", "rootfiles", copy ["README.md"; "LICENCE*"] "dist/") ].
Proof.
  apply (default_is_build 4). repeat constructor.
Defined.

(** ** The output layout *)

(** C7, as amended.  With fuel for its two levels of task names, [build]
    runs, and its two output directories are [dist/default] and
    [dist/minimal]: distinct, neither a prefix of the other, and no path
    lies in both trees.  For any set of project files, the [copy] stage
    writes exactly the root static files ([README.md] and every root-level
    [LICENCE*]), each directly under [dist/]: next to the two output trees
    and inside neither. *)
Theorem build_output_layout (fuel : nat) (files : list string) :
  2 <= fuel ->
  exists stages,
    run fuel "build" = Some stages /\
    output_trees stages = ["dist/default"; "dist/minimal"] /\
    "dist/default" <> "dist/minimal" /\
    String.prefix "dist/default" "dist/minimal" = false /\
    String.prefix "dist/minimal" "dist/default" = false /\
    (forall p, ~ (in_tree "dist/default" p = true /\
                  in_tree "dist/minimal" p = true)) /\
    (forall w, w ∈ copied files stages <->
               exists f, f ∈ files /\ root_static f /\ w = "dist/" +:+ f) /\
    (forall w, w ∈ copied files stages ->
               in_tree "dist/default" w = false /\
               in_tree "dist/minimal" w = false).
Proof.
  intros Hfuel. exists build_stages.
  split; [apply (run_fuel_le 2); [exact Hfuel | reflexivity]|].
  split; [reflexivity|]. split; [discriminate|].
  split; [reflexivity|]. split; [reflexivity|].
  split; [apply trees_disjoint|]. split.
  - intros w. split; [apply copied_build_inv|].
    intros (f & Hf & Hs & ->). now apply copied_build_intro.
  - intros w Hw. apply copied_build_inv in Hw as (f & _ & Hs & ->).
    now apply root_static_outside.
Qed.

Lemma build_output_layout_witness :
  exists stages,
    run 2 "build" = Some stages /\
    output_trees stages = ["dist/default"; "dist/minimal"] /\
    "dist/default" <> "dist/minimal" /\
    String.prefix "dist/default" "dist/minimal" = false /\
    String.prefix "dist/minimal" "dist/default" = false /\
    (forall p, ~ (in_tree "dist/default" p = true /\
                  in_tree "dist/minimal" p = true)) /\
    (forall w, w ∈ copied sample_files stages <->
               exists f, f ∈ sample_files /\ root_static f /\
                         w = "dist/" +:+ f) /\
    (forall w, w ∈ copied sample_files stages ->
               in_tree "dist/default" w = false /\
               in_tree "dist/minimal" w = false).
Proof.
  apply (build_output_layout 2 sample_files). apply Nat.le_refl.
Defined.

(** C7 as stated fails: with [README.md] and [LICENCE] in the project
    root, the [copy] stage of [build] writes [dist/README.md] and
    [dist/LICENCE] and nothing else; neither file is inside [dist/default]
    or [dist/minimal], and no copy is written into either tree. *)
Lemma copies_not_in_output_trees :
  run 2 "build" = Some build_stages /\
  copied sample_files build_stages = ["dist/README.md"; "dist/LICENCE"] /\
  Forall (fun tree =>
            Forall (fun w => in_tree tree w = false)
                   (copied sample_files build_stages))
         (output_trees build_stages) /\
  ("dist/default/README.md" ∉ copied sample_files build_stages) /\
  ("dist/minimal/README.md" ∉ copied sample_files build_stages).
Proof.
  split; [reflexivity|]. split; [reflexivity|].
  split; [repeat constructor|].
  split; intros H; repeat (apply elem_of_cons in H as [H|H];
                           [discriminate H|]); now apply elem_of_nil in H.
Qed.

End GruntfileFacts.

(** * Properties of the hand-written [typedoc] task *)

Module GruntfileFunctionTaskFacts.
Import GruntfileFunctionTask.


End GruntfileFunctionTaskFacts.
